(** * The VAST fetcher (src/fetcher.js): a shallow embedding

    The class [Fetcher] keeps an ordered list of URL template filters, a
    transport ([urlHandler]) and the options handed to it.  [fetchVAST]
    rewrites the URL through the filters, announces the request, awaits the
    transport, announces the answer, feeds the bitrate estimator and settles
    a promise.

    JavaScript values are embedded as an inductive type whose plain objects
    are finite maps from property names to values.  Numbers are restricted
    to integers (time stamps, status codes, byte counts); functions are
    references whose behaviour is given by a host environment.  Effects
    (calls to the emitter, the transport, the estimator and the console,
    the promise under construction, the clock) are threaded through a small
    state-and-exception monad. *)

From Stdlib Require Import ZArith List.
From stdpp Require Import gmap strings list fin_maps pretty.

Set Warnings "-register-all".

(** ** Values *)

Definition fn_id := nat.

Inductive value : Type :=
| VUndefined
| VNull
| VBool (b : bool)
| VNum (n : Z)
| VStr (s : string)
| VObj (props : gmap string value)
| VFun (f : fn_id).

(** The result of evaluating an expression or a call: a value, or an
    exception carrying the thrown value. *)
Inductive completion (A : Type) : Type :=
| Normal (a : A)
| Throw (e : value).
Arguments Normal {A} a.
Arguments Throw {A} e.

(** The error raised by the language itself: reading a property of
    [undefined] or [null], calling something that is not a function. *)
Definition TypeError : value := VObj {[ "name" := VStr "TypeError" ]}.

(** [ToBoolean]. *)
Definition truthy (v : value) : bool :=
  match v with
  | VUndefined | VNull => false
  | VBool b => b
  | VNum n => negb (n =? 0)%Z
  | VStr s => match s with EmptyString => false | String _ _ => true end
  | VObj _ | VFun _ => true
  end.

(** [a || b]. *)
Definition js_or (a b : value) : value := if truthy a then a else b.

(** [Boolean(v)]. *)
Definition Boolean (v : value) : value := VBool (truthy v).

Definition is_nullish (v : value) : bool :=
  match v with
  | VUndefined | VNull => true
  | _ => false
  end.

(** [typeof v === 'function']. *)
Definition is_function (v : value) : bool :=
  match v with
  | VFun _ => true
  | _ => false
  end.

(** The characters of a string as index-keyed properties:
    [{..."ab"}] is [{0: "a", 1: "b"}]. *)
Fixpoint string_props (i : nat) (s : string) : gmap string value :=
  match s with
  | EmptyString => ∅
  | String c rest => <[pretty i := VStr (String c EmptyString)]> (string_props (S i) rest)
  end.

(** The own enumerable properties of a value, as copied by the spread
    syntax [{...v}]: those of an object, the characters of a string, nothing
    for [undefined], [null], booleans, numbers and functions. *)
Definition own_props (v : value) : gmap string value :=
  match v with
  | VObj o => o
  | VStr s => string_props 0 s
  | _ => ∅
  end.

(** [{...target_so_far, ...src}]: the properties of [src] are written
    after those already present and overwrite them. *)
Definition object_spread (target : gmap string value) (src : value) : gmap string value :=
  own_props src ∪ target.

(** [v.k] for a [v] that is neither [undefined] nor [null].  The prototype
    chain is not modelled: none of the property names read by the fetcher
    is defined on a built-in prototype. *)
Definition get_prop (v : value) (k : string) : value :=
  match own_props v !! k with
  | Some x => x
  | None =>
      match v with
      | VStr s => if String.eqb k "length" then VNum (Z.of_nat (String.length s)) else VUndefined
      | _ => VUndefined
      end
  end.

(** [v.k]: a [TypeError] on [undefined] and [null]. *)
Definition get_member (v : value) (k : string) : completion value :=
  if is_nullish v then Throw TypeError else Normal (get_prop v k).

(** [v?.k]. *)
Definition get_member_opt (v : value) (k : string) : value :=
  if is_nullish v then VUndefined else get_prop v k.

(** A parameter default [x = d]: used when the argument is [undefined]. *)
Definition default_param (v d : value) : value :=
  match v with
  | VUndefined => d
  | _ => v
  end.

(** ** The host environment

    What the module imports and what the caller injects.  [call_fn] gives
    the outcome of calling a function reference on arguments; for the
    transport's [get], which the fetcher awaits, it is the outcome of the
    awaited call (a rejected promise is a [Throw]).  The awaited promise is
    taken to settle.  [now n] is the [n]-th reading of [Date.now()] made by
    the attempt.  [updateEstimatedBitrate], the default [urlHandler] and
    [DEFAULT_TIMEOUT] are imported from modules that are not part of the
    file and are left as parameters. *)
Record Host := {
  call_fn : fn_id -> list value -> completion value;
  now : nat -> Z;
  updateEstimatedBitrate : value -> value -> completion value;
  default_urlHandler : value;
  DEFAULT_TIMEOUT : value
}.

(** ** The object, the promise and the observable events *)

Record Fetcher := {
  URLTemplateFilters : list value;
  urlHandler : value;
  fetchingOptions : value
}.

Inductive promise_state :=
| Pending
| Fulfilled (v : value)
| Rejected (e : value).

(** Calls made to the collaborators, with their outcome, in the order in
    which they happen. [EvUnhandled] is the rejection of the promise of the
    [async] executor itself, which nobody holds. *)
Inductive event :=
| EvEmit (name : string) (payload : value) (out : completion value)
| EvGet (url options : value) (out : completion value)
| EvBitrate (byteLength duration : value) (out : completion value)
| EvLog (error : value)
| EvUnhandled (error : value).

Record state := {
  this : Fetcher;
  promise : promise_state;
  trace : list event;
  ticks : nat
}.

(** ** The monad *)

Definition M (A : Type) : Type := state -> completion A * state.

#[export] Instance M_ret : MRet M := fun A a s => (Normal a, s).

#[export] Instance M_bind : MBind M := fun A B k m s =>
  match m s with
  | (Normal a, s') => k a s'
  | (Throw e, s') => (Throw e, s')
  end.

(** [try { body } catch (error) { handler }]. *)
Definition try_catch {A} (body : M A) (handler : value -> M A) : M A := fun s =>
  match body s with
  | (Normal a, s') => (Normal a, s')
  | (Throw e, s') => handler e s'
  end.

(** An expression evaluated for its completion only. *)
Definition lift {A} (c : completion A) : M A := fun s => (c, s).

Definition get_this : M Fetcher := fun s => (Normal (this s), s).

Definition set_this (f : Fetcher) : M unit := fun s =>
  (Normal tt, {| this := f; promise := promise s; trace := trace s; ticks := ticks s |}).

Definition log_event (ev : event) : M unit := fun s =>
  (Normal tt, {| this := this s; promise := promise s; trace := trace s ++ [ev]; ticks := ticks s |}).

Definition settle (outcome : promise_state) : M unit := fun s =>
  (Normal tt,
   {| this := this s;
      promise := match promise s with Pending => outcome | settled => settled end;
      trace := trace s;
      ticks := ticks s |}).

(** The [resolve] and [reject] functions handed to the executor: only the
    first settlement counts. *)
Definition resolve (v : value) : M unit := settle (Fulfilled v).
Definition reject (e : value) : M unit := settle (Rejected e).

Definition console_error (error : value) : M unit := log_event (EvLog error).

Section Model.
Context (H : Host).

(** [callee(args)]. *)
Definition call_value (callee : value) (args : list value) : completion value :=
  match callee with
  | VFun f => call_fn H f args
  | _ => Throw TypeError
  end.

(** [Date.now()]. *)
Definition Date_now : M Z := fun s =>
  (Normal (now H (ticks s)),
   {| this := this s; promise := promise s; trace := trace s; ticks := S (ticks s) |}).

(** [emitter(name, payload)]: the call is recorded when [emitter] is
    callable. *)
Definition emit (emitter : value) (name : string) (payload : value) : M value :=
  match emitter with
  | VFun _ =>
      let out := call_value emitter [VStr name; payload] in
      log_event (EvEmit name payload out) ;; lift out
  | _ => lift (Throw TypeError)
  end.

(** [await handler.get(url, options)]. *)
Definition await_get (handler url options : value) : M value :=
  get ← lift (get_member handler "get") ;
  match get with
  | VFun _ =>
      let out := call_value get [url; options] in
      log_event (EvGet url options out) ;; lift out
  | _ => lift (Throw TypeError)
  end.

(** The imported [updateEstimatedBitrate(byteLength, duration)]. *)
Definition update_bitrate (byteLength duration : value) : M value :=
  let out := updateEstimatedBitrate H byteLength duration in
  log_event (EvBitrate byteLength duration out) ;; lift out.

(** *** The class *)

(** [constructor()]: only the filter chain is initialised; [urlHandler] and
    [fetchingOptions] do not exist until [setOptions] is called. *)
Definition Fetcher_constructor : Fetcher :=
  {| URLTemplateFilters := []; urlHandler := VUndefined; fetchingOptions := VUndefined |}.

(** [setOptions(options = {})].  Reading a property has no effect, so
    reading [urlhandler] even when [urlHandler] is truthy changes nothing
    to [options.urlHandler || options.urlhandler || urlHandler]. *)
Definition setOptions (options : value) : M unit :=
  let options := default_param options (VObj ∅) in
  a ← lift (get_member options "urlHandler") ;
  b ← lift (get_member options "urlhandler") ;
  f ← get_this ;
  set_this {| URLTemplateFilters := URLTemplateFilters f;
              urlHandler := js_or a (js_or b (default_urlHandler H));
              fetchingOptions := fetchingOptions f |} ;;
  timeout ← lift (get_member options "timeout") ;
  withCredentials ← lift (get_member options "withCredentials") ;
  f ← get_this ;
  set_this {| URLTemplateFilters := URLTemplateFilters f;
              urlHandler := urlHandler f;
              fetchingOptions :=
                VObj {[ "timeout" := js_or timeout (DEFAULT_TIMEOUT H);
                        "withCredentials" := Boolean withCredentials ]} |}.

(** [addURLTemplateFilter(filter)]: [push] when [filter] is a function,
    nothing otherwise. *)
Definition addURLTemplateFilter (filter : value) : M unit :=
  if is_function filter then
    f ← get_this ;
    set_this {| URLTemplateFilters := URLTemplateFilters f ++ [filter];
                urlHandler := urlHandler f;
                fetchingOptions := fetchingOptions f |}
  else mret tt.

(** [removeLastURLTemplateFilter()]: [pop], which does nothing on an empty
    array. *)
Definition removeLastURLTemplateFilter : M unit :=
  f ← get_this ;
  set_this {| URLTemplateFilters := removelast (URLTemplateFilters f);
              urlHandler := urlHandler f;
              fetchingOptions := fetchingOptions f |}.

Definition countURLTemplateFilters : M nat :=
  f ← get_this ; mret (length (URLTemplateFilters f)).

Definition clearURLTemplateFilters : M unit :=
  f ← get_this ;
  set_this {| URLTemplateFilters := [];
              urlHandler := urlHandler f;
              fetchingOptions := fetchingOptions f |}.

(** [filters.forEach((filter) => { url = filter(url); })]: the first
    exception ends the loop. *)
Fixpoint apply_filters (filters : list value) (url : value) : completion value :=
  match filters with
  | [] => Normal url
  | filter :: rest =>
      match call_value filter [url] with
      | Normal url' => apply_filters rest url'
      | Throw e => Throw e
      end
  end.

(** The argument of [fetchVAST], as destructured; a field the caller
    omits is [undefined]. *)
Record FetchParams := {
  url : value;
  maxWrapperDepth : value;
  emitter : value;
  wrapperDepth : value;
  previousUrl : value;
  wrapperAd : value
}.

(** The payload of ['VAST-resolving']. *)
Definition resolving_payload (p : FetchParams) (url timeout : value) : value :=
  VObj {[ "url" := url;
          "previousUrl" := default_param (previousUrl p) VNull;
          "wrapperDepth" := default_param (wrapperDepth p) (VNum 0);
          "maxWrapperDepth" := maxWrapperDepth p;
          "timeout" := timeout;
          "wrapperAd" := default_param (wrapperAd p) VNull ]}.

(** The six properties written before the spread in the payload of
    ['VAST-resolved']. *)
Definition resolved_fields (p : FetchParams) (url data requestDuration : value)
  : gmap string value :=
  {[ "url" := url;
     "previousUrl" := default_param (previousUrl p) VNull;
     "wrapperDepth" := default_param (wrapperDepth p) (VNum 0);
     "error" := js_or (get_member_opt data "error") VNull;
     "duration" := requestDuration;
     "statusCode" := js_or (get_member_opt data "statusCode") VNull ]}.

(** The payload of ['VAST-resolved']: the six properties, then
    [...data?.details]. *)
Definition resolved_payload (p : FetchParams) (url data requestDuration : value) : value :=
  VObj (object_spread (resolved_fields p url data requestDuration)
                      (get_member_opt data "details")).

(** The body of the [async] arrow function given to [new Promise].  After
    the [await] the code reads local variables only, so what other code
    does to the object while the transport is awaited does not matter. *)
Definition executor (p : FetchParams) : M unit :=
  timeBeforeGet ← Date_now ;
  f ← get_this ;
  url ← lift (apply_filters (URLTemplateFilters f) (url p)) ;
  try_catch
    (f ← get_this ;
     timeout ← lift (get_member (fetchingOptions f) "timeout") ;
     emit (emitter p) "VAST-resolving" (resolving_payload p url timeout) ;;
     f ← get_this ;
     data ← await_get (urlHandler f) url (fetchingOptions f) ;
     t ← Date_now ;
     let requestDuration := VNum (t - timeBeforeGet) in
     emit (emitter p) "VAST-resolved" (resolved_payload p url data requestDuration) ;;
     update_bitrate (get_member_opt (get_member_opt data "details") "byteLength")
                    requestDuration ;;
     error ← lift (get_member data "error") ;
     if truthy error then reject error
     else (xml ← lift (get_member data "xml") ; resolve xml))
    (fun error => console_error error).

(** Calling an [async] function never throws: an exception in its body
    rejects the promise it returns.  The executor's promise is dropped by
    [new Promise], so the rejection is observed by nobody. *)
Definition async (body : M unit) : M unit := fun s =>
  match body s with
  | (Normal _, s') => (Normal tt, s')
  | (Throw e, s') => log_event (EvUnhandled e) s'
  end.

(** [new Promise(executor)]: a fresh pending promise; an exception thrown
    by the executor rejects it.  The value returned stands for the promise,
    whose final state is the [promise] field. *)
Definition new_Promise (executor : M unit) : M unit := fun s =>
  let s0 := {| this := this s; promise := Pending; trace := trace s; ticks := ticks s |} in
  match executor s0 with
  | (Normal _, s') => (Normal tt, s')
  | (Throw e, s') => reject e s'
  end.

Definition fetchVAST (p : FetchParams) : M unit :=
  new_Promise (async (executor p)).

(** One attempt on the object [f], observed from an empty trace. *)
Definition start (f : Fetcher) : state :=
  {| this := f; promise := Pending; trace := []; ticks := 0 |}.

Definition attempt (f : Fetcher) (p : FetchParams) : completion unit * state :=
  fetchVAST p (start f).

(** What the caller of [fetchVAST] gets back, what was observed, and the
    final state of the returned promise. *)
Definition result_of (f : Fetcher) (p : FetchParams) : completion unit := (attempt f p).1.
Definition trace_of (f : Fetcher) (p : FetchParams) : list event := trace (attempt f p).2.
Definition promise_of (f : Fetcher) (p : FetchParams) : promise_state := promise (attempt f p).2.

(** The duration measured by an attempt: the second reading of the clock
    minus the first ([Math.round] is the identity on integers). *)
Definition measured_duration : value := VNum (now H 1 - now H 0).

End Model.

(** ** Reading a trace *)

(** The emitter calls, as (event name, payload). *)
Fixpoint emitted (tr : list event) : list (string * value) :=
  match tr with
  | [] => []
  | EvEmit name payload _ :: rest => (name, payload) :: emitted rest
  | _ :: rest => emitted rest
  end.

(** The calls of the bitrate estimator, as (byteLength, duration). *)
Fixpoint bitrate_updates (tr : list event) : list (value * value) :=
  match tr with
  | [] => []
  | EvBitrate byteLength duration _ :: rest => (byteLength, duration) :: bitrate_updates rest
  | _ :: rest => bitrate_updates rest
  end.

(** The values written by [console.error]. *)
Fixpoint logged (tr : list event) : list value :=
  match tr with
  | [] => []
  | EvLog error :: rest => error :: logged rest
  | _ :: rest => logged rest
  end.

(** The exceptions lost as unhandled rejections. *)
Fixpoint unhandled (tr : list event) : list value :=
  match tr with
  | [] => []
  | EvUnhandled error :: rest => error :: unhandled rest
  | _ :: rest => unhandled rest
  end.

(** Does the event record a call of the emitter that threw? *)
Definition emit_threw (ev : event) : bool :=
  match ev with
  | EvEmit _ _ (Throw _) => true
  | _ => false
  end.

(** [filters.forEach(filter => fetcher.addURLTemplateFilter(filter))]:
    registration of a sequence of filters, first to last. *)
Fixpoint register_all (filters : list value) : M unit :=
  match filters with
  | [] => mret tt
  | filter :: rest => addURLTemplateFilter filter ;; register_all rest
  end.

(** ** Concrete hosts and requests, used to run the model *)

(** Two URL rewritings. *)
Definition add_query (suffix : string) (u : value) : value :=
  match u with
  | VStr s => VStr (s +:+ suffix)
  | _ => VUndefined
  end.

(** Function 0 is an emitter answering [on_emit name]; function 1 is a
    transport [get] whose awaited outcome is [on_get]; functions 2 and 3
    are filters appending a query parameter; function 4 is a filter that
    throws. *)
Definition demo_host (on_emit : string -> completion value) (on_get : completion value) : Host :=
  {| call_fn := fun f args =>
       match f, args with
       | 0, VStr name :: _ => on_emit name
       | 1, _ => on_get
       | 2, [u] => Normal (add_query "?a=1" u)
       | 3, [u] => Normal (add_query "&b=2" u)
       | 4, _ => Throw (VStr "bad filter")
       | _, _ => Normal VUndefined
       end;
     now := fun n => match n with 0 => 1000%Z | _ => 1250%Z end;
     updateEstimatedBitrate := fun _ _ => Normal VUndefined;
     default_urlHandler := VObj {[ "get" := VFun 1 ]};
     DEFAULT_TIMEOUT := VNum 120000 |}.

Definition quiet_emitter (name : string) : completion value := Normal VUndefined.

Definition demo_params : FetchParams :=
  {| url := VStr "http://ad.test/vast";
     maxWrapperDepth := VNum 5;
     emitter := VFun 0;
     wrapperDepth := VUndefined;
     previousUrl := VUndefined;
     wrapperAd := VUndefined |}.

(** An object configured with the default transport and no filter. *)
Definition configured_fetcher : Fetcher :=
  {| URLTemplateFilters := [];
     urlHandler := VObj {[ "get" := VFun 1 ]};
     fetchingOptions := VObj {[ "timeout" := VNum 120000; "withCredentials" := VBool false ]} |}.

(** An object with the filters 2 and 3 registered in this order. *)
Definition filtering_fetcher : Fetcher :=
  {| URLTemplateFilters := [VFun 2; VFun 3];
     urlHandler := urlHandler configured_fetcher;
     fetchingOptions := fetchingOptions configured_fetcher |}.

(** An object whose second filter throws. *)
Definition faulty_fetcher : Fetcher :=
  {| URLTemplateFilters := [VFun 2; VFun 4; VFun 3];
     urlHandler := urlHandler configured_fetcher;
     fetchingOptions := fetchingOptions configured_fetcher |}.

(** Transport results. *)
Definition result_ok : value :=
  VObj {[ "xml" := VStr "<VAST/>"; "details" := VObj {[ "byteLength" := VNum 42 ]} ]}.

Definition result_error : value :=
  VObj {[ "error" := VStr "boom"; "statusCode" := VNum 500 ]}.

(** A result whose details carry a property named like a fixed field. *)
Definition result_colliding : value :=
  VObj {[ "xml" := VStr "<VAST/>";
          "details" := VObj {[ "byteLength" := VNum 42; "url" := VStr "http://other.test/" ]} ]}.

(** An emitter that throws on the second event. *)
Definition emitter_failing_on_resolved (name : string) : completion value :=
  if String.eqb name "VAST-resolved" then Throw (VStr "listener failed") else Normal VUndefined.

(** ** Users of the class *)

(** The calls an attempt makes to its collaborators, in order, without
    their arguments and outcomes. *)
Inductive call_kind :=
| KEmit (name : string)
| KGet
| KBitrate.

Fixpoint calls (tr : list event) : list call_kind :=
  match tr with
  | [] => []
  | EvEmit name _ _ :: rest => KEmit name :: calls rest
  | EvGet _ _ _ :: rest => KGet :: calls rest
  | EvBitrate _ _ _ :: rest => KBitrate :: calls rest
  | _ :: rest => calls rest
  end.

(** Has the promise been fulfilled or rejected? *)
Definition settled (pr : promise_state) : bool :=
  match pr with
  | Pending => false
  | _ => true
  end.

(** A call of a method of the class by a client. *)
Inductive method_call :=
| CallSetOptions (options : value)
| CallAddURLTemplateFilter (filter : value)
| CallRemoveLastURLTemplateFilter
| CallCountURLTemplateFilters
| CallClearURLTemplateFilters
| CallFetchVAST (p : FetchParams).

Definition perform (H : Host) (c : method_call) : M unit :=
  match c with
  | CallSetOptions options => setOptions H options
  | CallAddURLTemplateFilter filter => addURLTemplateFilter filter
  | CallRemoveLastURLTemplateFilter => removeLastURLTemplateFilter
  | CallCountURLTemplateFilters => countURLTemplateFilters ;; mret tt
  | CallClearURLTemplateFilters => clearURLTemplateFilters
  | CallFetchVAST p => fetchVAST H p
  end.

(** A client making the calls one after the other on the same object,
    carrying on when one of them throws. *)
Fixpoint session (H : Host) (cs : list method_call) (s : state) : state :=
  match cs with
  | [] => s
  | c :: rest => session H rest (perform H c s).2
  end.

(** The host [H] with another bitrate estimator. *)
Definition with_estimator (H : Host) (estimator : value -> value -> completion value) : Host :=
  {| call_fn := call_fn H;
     now := now H;
     updateEstimatedBitrate := estimator;
     default_urlHandler := default_urlHandler H;
     DEFAULT_TIMEOUT := DEFAULT_TIMEOUT H |}.


(** * Properties *)

(** ** Symbolic execution of one attempt

    [split_run] unfolds the monadic code of [fetchVAST] and follows every
    path: each test of the code (a call outcome, [undefined] or [null]
    receiver, callable or not, truthy or not) becomes a case, and the trace
    of each case is a concrete list. *)

Ltac unfold_run :=
  cbv [result_of trace_of promise_of attempt fetchVAST new_Promise async executor
       try_catch mbind M_bind mret M_ret lift get_this set_this Date_now emit
       await_get update_bitrate log_event console_error resolve reject settle
       start get_member measured_duration this promise trace ticks fst snd].

Ltac split_run :=
  unfold_run;
  repeat match goal with
  | |- context [match ?x with _ => _ end] =>
      lazymatch x with
      | context [match _ with _ => _ end] => fail
      | _ => destruct x eqn:?; unfold_run
      end
  end;
  cbn [app emitted bitrate_updates logged unhandled last].

Ltac trace_facts :=
  intros;
  repeat match goal with
  | H : _ ∨ _ |- _ => destruct H
  | H : ∃ _, _ |- _ => destruct H
  | H : _ ∧ _ |- _ => destruct H
  end;
  decompose_list_elem_of; simplify_eq.

(** Membership in an explicit list, and in a trace once computed. *)
Ltac in_list :=
  solve [repeat first [apply list_elem_of_here | apply list_elem_of_further]].

Ltac in_trace := vm_compute; in_list.

(** A hypothesis excluding a kind of event from the trace, used against a
    path on which such an event occurs. *)
Ltac excluded :=
  match goal with
  | Hno : forall _ _ _, _ ∉ _ |- _ => exfalso; eapply Hno; in_list
  end.

(** ** Traces *)

Lemma no_emit_threw tr :
  existsb emit_threw tr = false ->
  forall name payload e, EvEmit name payload (Throw e) ∉ tr.
Proof.
  intros Hnone name payload e Hin.
  assert (existsb emit_threw tr = true) as Hsome; [|congruence].
  apply existsb_exists. exists (EvEmit name payload (Throw e)).
  split; [by apply list_elem_of_In | reflexivity].
Qed.

(** ** Values *)

Lemma get_member_opt_eq v k :
  is_nullish v = false -> get_member v k = Normal (get_member_opt v k).
Proof. unfold get_member, get_member_opt. by intros ->. Qed.

Lemma js_or_truthy a b : truthy a = true -> js_or a b = a.
Proof. unfold js_or. by intros ->. Qed.

Lemma js_or_falsy a b : truthy a = false -> js_or a b = b.
Proof. unfold js_or. by intros ->. Qed.

Lemma object_spread_lookup target src k :
  object_spread target src !! k =
    match own_props src !! k with
    | Some v => Some v
    | None => target !! k
    end.
Proof.
  unfold object_spread. rewrite lookup_union.
  destruct (own_props src !! k), (target !! k); reflexivity.
Qed.

Lemma object_spread_nullish target src :
  is_nullish src = true -> object_spread target src = target.
Proof.
  unfold object_spread.
  destruct src; try discriminate; intros _; cbn; apply (left_id_L ∅ (∪)).
Qed.

(** ** The filter chain *)

Section Filters.
Context (H : Host).

Lemma apply_filters_app fs1 fs2 u :
  apply_filters H (fs1 ++ fs2) u =
    match apply_filters H fs1 u with
    | Normal u' => apply_filters H fs2 u'
    | Throw e => Throw e
    end.
Proof.
  revert u. induction fs1 as [|filter fs1 IH]; intros u; cbn; [done|].
  destruct (call_value H filter [u]); [apply IH | done].
Qed.


(** The chain stops at the first filter that throws. *)
Lemma apply_filters_throw fs1 filter fs2 u u' e :
  apply_filters H fs1 u = Normal u' ->
  call_value H filter [u'] = Throw e ->
  apply_filters H (fs1 ++ filter :: fs2) u = Throw e.
Proof. intros H1 H2. rewrite apply_filters_app, H1. cbn. by rewrite H2. Qed.

End Filters.

Lemma addURLTemplateFilter_function filter s :
  is_function filter = true ->
  URLTemplateFilters (this (addURLTemplateFilter filter s).2)
  = URLTemplateFilters (this s) ++ [filter].
Proof. unfold addURLTemplateFilter. by intros ->. Qed.

Lemma addURLTemplateFilter_not_function filter s :
  is_function filter = false -> (addURLTemplateFilter filter s).2 = s.
Proof. unfold addURLTemplateFilter. by intros ->. Qed.


Lemma removeLastURLTemplateFilter_chain s :
  URLTemplateFilters (this (removeLastURLTemplateFilter s).2)
  = removelast (URLTemplateFilters (this s)).
Proof. reflexivity. Qed.

(** [removeLast()] on an empty chain is not an error and leaves the count
    at 0. *)
Lemma removeLastURLTemplateFilter_empty s :
  URLTemplateFilters (this s) = [] ->
  (removeLastURLTemplateFilter s).1 = Normal tt
  /\ (countURLTemplateFilters (removeLastURLTemplateFilter s).2).1 = Normal 0.
Proof.
  intros Hs. split; [reflexivity|].
  cbv [removeLastURLTemplateFilter countURLTemplateFilters mbind M_bind mret M_ret
       get_this set_this this fst snd URLTemplateFilters].
  destruct s as [[fs uh fo] pr tr tk]; cbn in Hs; subst fs. reflexivity.
Qed.

(** [fetchVAST] does not write to the object. *)
Lemma fetchVAST_this H p s : this (fetchVAST H p s).2 = this s.
Proof. split_run; reflexivity. Qed.

Lemma fetchVAST_returns H p s : (fetchVAST H p s).1 = Normal tt.
Proof. split_run; reflexivity. Qed.

(** ** Configuration *)

Section Configuration.
Context (H : Host).

(** What [setOptions] leaves in the object when [options] is neither
    [null] nor a value without the properties read: both fields are
    functions of [options] alone. *)
Lemma setOptions_this options s :
  options <> VNull ->
  let o := default_param options (VObj ∅) in
  this (setOptions H options s).2 =
    {| URLTemplateFilters := URLTemplateFilters (this s);
       urlHandler :=
         js_or (get_prop o "urlHandler") (js_or (get_prop o "urlhandler") (default_urlHandler H));
       fetchingOptions :=
         VObj {[ "timeout" := js_or (get_prop o "timeout") (DEFAULT_TIMEOUT H);
                 "withCredentials" := Boolean (get_prop o "withCredentials") ]} |}.
Proof. intros Hnull. destruct options; try done. Qed.

(** [setOptions(null)] throws before any assignment. *)
Lemma setOptions_null s :
  setOptions H VNull s = (Throw TypeError, s).
Proof. reflexivity. Qed.

(** C6. [setOptions] with no argument yields fetching options with
    [timeout] equal to [DEFAULT_TIMEOUT] and [withCredentials] equal to
    [false]; so does, field by field, an options object whose [timeout] is
    falsy, respectively whose [withCredentials] is falsy; an options object
    whose [withCredentials] is any truthy value yields [withCredentials]
    equal to the boolean [true]. *)
Theorem setOptions_defaults_and_coercion s (o_t o_c o_y : gmap string value) :
  truthy (get_prop (VObj o_t) "timeout") = false ->
  truthy (get_prop (VObj o_c) "withCredentials") = false ->
  truthy (get_prop (VObj o_y) "withCredentials") = true ->
  fetchingOptions (this (setOptions H VUndefined s).2)
  = VObj {[ "timeout" := DEFAULT_TIMEOUT H; "withCredentials" := VBool false ]}
  /\ get_prop (fetchingOptions (this (setOptions H (VObj o_t) s).2)) "timeout"
     = DEFAULT_TIMEOUT H
  /\ get_prop (fetchingOptions (this (setOptions H (VObj o_c) s).2)) "withCredentials"
     = VBool false
  /\ get_prop (fetchingOptions (this (setOptions H (VObj o_y) s).2)) "withCredentials"
     = VBool true.
Proof.
  intros Htimeout Hfalse Htrue. split; [|split; [|split]].
  - rewrite setOptions_this by done. reflexivity.
  - rewrite setOptions_this by done. cbv [fetchingOptions default_param].
    rewrite (js_or_falsy _ _ Htimeout). reflexivity.
  - rewrite setOptions_this by done. cbv [fetchingOptions default_param].
    unfold Boolean. rewrite Hfalse. reflexivity.
  - rewrite setOptions_this by done. cbv [fetchingOptions default_param].
    unfold Boolean. rewrite Htrue. reflexivity.
Qed.

(** C9. The transport kept by [setOptions] is the [urlHandler] property of
    the options when it is truthy, otherwise their all-lowercase
    [urlhandler] property when it is truthy, otherwise the imported default
    transport (also when no options are given). *)
Theorem setOptions_transport_priority s (o : gmap string value) :
  urlHandler (this (setOptions H (VObj o) s).2)
  = (if truthy (get_prop (VObj o) "urlHandler") then get_prop (VObj o) "urlHandler"
     else if truthy (get_prop (VObj o) "urlhandler") then get_prop (VObj o) "urlhandler"
     else default_urlHandler H)
  /\ urlHandler (this (setOptions H VUndefined s).2) = default_urlHandler H.
Proof. split; rewrite setOptions_this by done; reflexivity. Qed.

(** C10. [setOptions] never changes the filter chain (same filters, same
    order, same count), whatever the state and the options; given an
    options object, it overwrites the transport and the fetching options
    with values that depend on the options only. *)
Theorem setOptions_keeps_filters s options (o : gmap string value) :
  URLTemplateFilters (this (setOptions H options s).2) = URLTemplateFilters (this s)
  /\ (countURLTemplateFilters (setOptions H options s).2).1 = (countURLTemplateFilters s).1
  /\ urlHandler (this (setOptions H (VObj o) s).2)
     = js_or (get_prop (VObj o) "urlHandler")
             (js_or (get_prop (VObj o) "urlhandler") (default_urlHandler H))
  /\ fetchingOptions (this (setOptions H (VObj o) s).2)
     = VObj {[ "timeout" := js_or (get_prop (VObj o) "timeout") (DEFAULT_TIMEOUT H);
               "withCredentials" := Boolean (get_prop (VObj o) "withCredentials") ]}.
Proof.
  assert (URLTemplateFilters (this (setOptions H options s).2)
          = URLTemplateFilters (this s)) as Hchain.
  { destruct options; try by rewrite setOptions_this.
    by rewrite setOptions_null. }
  split; [|split; [|split]].
  - exact Hchain.
  - cbv [countURLTemplateFilters mbind M_bind mret M_ret get_this fst]. by rewrite Hchain.
  - by rewrite setOptions_this.
  - by rewrite setOptions_this.
Qed.

End Configuration.

(** ** One attempt of [fetchVAST] *)

Section Attempt.
Context (H : Host) (f : Fetcher) (p : FetchParams).

(** [fetchVAST] always hands a promise back to its caller. *)
Lemma attempt_returns : result_of H f p = Normal tt.
Proof. apply fetchVAST_returns. Qed.

(** The transport is called with the rewritten URL and the configured
    options, after ['VAST-resolving'] has been emitted with that URL. *)
Lemma attempt_get_inv u o out :
  EvGet u o out ∈ trace_of H f p ->
  apply_filters H (URLTemplateFilters f) (url p) = Normal u
  /\ o = fetchingOptions f
  /\ exists r, take 2 (trace_of H f p)
       = [EvEmit "VAST-resolving"
            (resolving_payload p u (get_prop (fetchingOptions f) "timeout")) (Normal r);
          EvGet u o out].
Proof. split_run; trace_facts; eauto. Qed.

(** The payload of ['VAST-resolved'] once the transport has answered. *)
Lemma attempt_resolved_payload u o data payload out :
  EvGet u o (Normal data) ∈ trace_of H f p ->
  EvEmit "VAST-resolved" payload out ∈ trace_of H f p ->
  payload = resolved_payload p u data (measured_duration H).
Proof. split_run; trace_facts; reflexivity. Qed.

(** How the promise is settled when the transport answers with a value
    that has properties and neither the emitter nor the estimator throws. *)
Lemma attempt_settles u o data :
  EvGet u o (Normal data) ∈ trace_of H f p ->
  (forall name payload e, EvEmit name payload (Throw e) ∉ trace_of H f p) ->
  (forall b d e, EvBitrate b d (Throw e) ∉ trace_of H f p) ->
  is_nullish data = false ->
  promise_of H f p =
    if truthy (get_prop data "error") then Rejected (get_prop data "error")
    else Fulfilled (get_prop data "xml").
Proof.
  split_run; intros Hget Hemit Hbit Hdata; trace_facts; try done; try excluded;
    congruence.
Qed.

(** C1 (as amended). Once the transport has answered, every property of the
    payload of ['VAST-resolved'] has the value found in [data.details]
    when [details] has a property of that name, and the value of the fixed
    field ([url], [previousUrl], [wrapperDepth], [error], [duration],
    [statusCode]) otherwise: on a collision the details win. *)
Theorem resolved_payload_details_take_precedence u o data payload out k :
  EvGet u o (Normal data) ∈ trace_of H f p ->
  EvEmit "VAST-resolved" payload out ∈ trace_of H f p ->
  own_props payload !! k =
    match own_props (get_member_opt data "details") !! k with
    | Some v => Some v
    | None => resolved_fields p u data (measured_duration H) !! k
    end.
Proof.
  intros Hget Hemit.
  rewrite (attempt_resolved_payload _ _ _ _ _ Hget Hemit).
  unfold resolved_payload. cbn [own_props]. apply object_spread_lookup.
Qed.

(** C2 (as amended). When a filter of the chain throws on the URL it
    receives, [fetchVAST] still returns a promise to its caller: nothing is
    thrown to the caller, no event is emitted, the transport is not called,
    nothing is logged, the exception is lost as the rejection of the
    executor's own promise, and the returned promise never settles. *)
Theorem filter_exception_is_lost fs1 filter fs2 u' e :
  URLTemplateFilters f = fs1 ++ filter :: fs2 ->
  apply_filters H fs1 (url p) = Normal u' ->
  call_value H filter [u'] = Throw e ->
  result_of H f p = Normal tt
  /\ trace_of H f p = [EvUnhandled e]
  /\ promise_of H f p = Pending.
Proof.
  intros Hchain Hpre Hthrow.
  pose proof (apply_filters_throw H fs1 filter fs2 _ _ _ Hpre Hthrow) as Hstop.
  rewrite <- Hchain in Hstop.
  unfold_run. rewrite Hstop. done.
Qed.

(** C3. When the awaited call of the transport throws, or a call of the
    emitter throws, [fetchVAST] has returned its promise normally, the
    exception is the one value written by [console.error], which is the
    last thing that happens, nothing is lost as an unhandled rejection, and
    the promise stays pending. *)
Theorem exception_is_logged_and_promise_pending e :
  (exists u o, EvGet u o (Throw e) ∈ trace_of H f p)
  \/ (exists name payload, EvEmit name payload (Throw e) ∈ trace_of H f p) ->
  result_of H f p = Normal tt
  /\ logged (trace_of H f p) = [e]
  /\ last (trace_of H f p) = Some (EvLog e)
  /\ unhandled (trace_of H f p) = []
  /\ promise_of H f p = Pending.
Proof. split_run; trace_facts; done. Qed.

(** C5 (as amended). When the awaited call of the transport returns and
    the call of the emitter for ['VAST-resolved'] does not throw, the
    estimator is called exactly once, with [data?.details?.byteLength] and
    the measured duration, whether [data.error] is set or not. *)
Theorem bitrate_updated_once u o data :
  EvGet u o (Normal data) ∈ trace_of H f p ->
  (forall payload e, EvEmit "VAST-resolved" payload (Throw e) ∉ trace_of H f p) ->
  bitrate_updates (trace_of H f p)
  = [(get_member_opt (get_member_opt data "details") "byteLength", measured_duration H)].
Proof.
  split_run; intros Hget Hemit; trace_facts; try done.
  all: exfalso; eapply Hemit; in_list.
Qed.

(** C8 (as amended). An attempt in which the awaited call of the transport
    returns and no call of the emitter throws makes exactly two calls of the
    emitter, for the same URL:
    ['VAST-resolving'], then ['VAST-resolved']. An attempt in which the
    call of the transport throws makes the first call only, and its promise
    stays pending. *)
Theorem events_are_paired :
  (forall u o data,
     EvGet u o (Normal data) ∈ trace_of H f p ->
     (forall name payload e, EvEmit name payload (Throw e) ∉ trace_of H f p) ->
     emitted (trace_of H f p)
     = [("VAST-resolving", resolving_payload p u (get_prop (fetchingOptions f) "timeout"));
        ("VAST-resolved", resolved_payload p u data (measured_duration H))])
  /\ (forall u o e,
        EvGet u o (Throw e) ∈ trace_of H f p ->
        emitted (trace_of H f p)
        = [("VAST-resolving", resolving_payload p u (get_prop (fetchingOptions f) "timeout"))]
        /\ promise_of H f p = Pending).
Proof.
  split.
  - split_run; intros u o data Hget Hemit; trace_facts; done.
  - split_run; trace_facts; done.
Qed.

End Attempt.

(** ** The filter chain in [fetchVAST] *)


(** ** The model at concrete inputs *)

(** The example of a successful answer: the promise is fulfilled with the
    document, both events are emitted and the estimator gets 42 bytes and
    the 250 time units that elapsed. *)
Example attempt_ok :
  let H := demo_host quiet_emitter (Normal result_ok) in
  promise_of H configured_fetcher demo_params = Fulfilled (VStr "<VAST/>")
  /\ (emitted (trace_of H configured_fetcher demo_params)).*1
     = ["VAST-resolving"; "VAST-resolved"]
  /\ bitrate_updates (trace_of H configured_fetcher demo_params) = [(VNum 42, VNum 250)].
Proof. vm_compute. done. Qed.

(** The example of a reported error: the promise is rejected with the
    error itself, and the payload of ['VAST-resolved'] carries it with the
    status code. *)
Example attempt_error :
  let H := demo_host quiet_emitter (Normal result_error) in
  promise_of H configured_fetcher demo_params = Rejected (VStr "boom")
  /\ exists payload,
       emitted (trace_of H configured_fetcher demo_params) !! 1 = Some ("VAST-resolved", payload)
       /\ get_prop payload "error" = VStr "boom"
       /\ get_prop payload "statusCode" = VNum 500.
Proof. split; [by vm_compute|]. eexists. split; [by vm_compute|]. by vm_compute. Qed.

(** The filters of [filtering_fetcher] rewrite the URL in registration
    order. *)
Example attempt_filters :
  apply_filters (demo_host quiet_emitter (Normal result_ok))
    (URLTemplateFilters filtering_fetcher) (VStr "http://ad.test/vast")
  = Normal (VStr "http://ad.test/vast?a=1&b=2").
Proof. reflexivity. Qed.

(** C1, as stated, fails: with [details = { byteLength: 42, url: ... }] the
    payload of ['VAST-resolved'] carries the [url] of the details, not the
    URL that was fetched. *)
Lemma resolved_payload_fixed_field_overwritten :
  ~ (forall H f p u o data payload out k,
       EvGet u o (Normal data) ∈ trace_of H f p ->
       EvEmit "VAST-resolved" payload out ∈ trace_of H f p ->
       is_Some (own_props (get_member_opt data "details") !! k) ->
       is_Some (resolved_fields p u data (measured_duration H) !! k) ->
       own_props payload !! k = resolved_fields p u data (measured_duration H) !! k).
Proof.
  intros Hclaim.
  pose (H := demo_host quiet_emitter (Normal result_colliding)).
  specialize (Hclaim H configured_fetcher demo_params
    (VStr "http://ad.test/vast") (fetchingOptions configured_fetcher) result_colliding
    (resolved_payload demo_params (VStr "http://ad.test/vast") result_colliding
       (measured_duration H))
    (Normal VUndefined) "url").
  assert (own_props (resolved_payload demo_params (VStr "http://ad.test/vast")
                       result_colliding (measured_duration H)) !! "url"
          = Some (VStr "http://other.test/")) as Hpayload by (by vm_compute).
  assert (resolved_fields demo_params (VStr "http://ad.test/vast") result_colliding
            (measured_duration H) !! "url"
          = Some (VStr "http://ad.test/vast")) as Hfixed by (by vm_compute).
  rewrite Hpayload, Hfixed in Hclaim.
  discriminate Hclaim.
  - in_trace.
  - in_trace.
  - exists (VStr "http://other.test/"). by vm_compute.
  - by eexists.
Qed.

(** C2, as stated, fails: the exception of a filter does not reach the
    caller of [fetchVAST], which gets a promise. *)
Lemma filter_exception_not_thrown_to_caller :
  ~ (forall H f p fs1 filter fs2 u' e,
       URLTemplateFilters f = fs1 ++ filter :: fs2 ->
       apply_filters H fs1 (url p) = Normal u' ->
       call_value H filter [u'] = Throw e ->
       result_of H f p = Throw e /\ emitted (trace_of H f p) = []).
Proof.
  intros Hclaim.
  destruct (Hclaim (demo_host quiet_emitter (Normal result_ok)) faulty_fetcher demo_params
              [VFun 2] (VFun 4) [VFun 3] (VStr "http://ad.test/vast?a=1") (VStr "bad filter"))
    as [Hthrown _]; try reflexivity.
  discriminate Hthrown.
Qed.

(** C4 at the result [undefined]: both events are emitted, the estimator is
    called, no listener throws and [error] is not set; then [data.error]
    raises a [TypeError], which is logged, and the promise is neither
    fulfilled nor rejected. *)
Lemma undefined_result_leaves_promise_pending :
  let H := demo_host quiet_emitter (Normal VUndefined) in
  let u := VStr "http://ad.test/vast" in
  trace_of H configured_fetcher demo_params
  = [EvEmit "VAST-resolving" (resolving_payload demo_params u (VNum 120000)) (Normal VUndefined);
     EvGet u (fetchingOptions configured_fetcher) (Normal VUndefined);
     EvEmit "VAST-resolved" (resolved_payload demo_params u VUndefined (VNum 250))
       (Normal VUndefined);
     EvBitrate VUndefined (VNum 250) (Normal VUndefined);
     EvLog TypeError]
  /\ truthy (get_member_opt VUndefined "error") = false
  /\ promise_of H configured_fetcher demo_params = Pending.
Proof. by vm_compute. Qed.

(** C5, as stated, fails: when the listener throws on ['VAST-resolved'],
    the transport has returned and the estimator is not called. *)
Lemma bitrate_not_updated_when_listener_throws :
  ~ (forall H f p u o data,
       EvGet u o (Normal data) ∈ trace_of H f p ->
       bitrate_updates (trace_of H f p)
       = [(get_member_opt (get_member_opt data "details") "byteLength",
           measured_duration H)]).
Proof.
  intros Hclaim.
  specialize (Hclaim (demo_host emitter_failing_on_resolved (Normal result_ok))
    configured_fetcher demo_params
    (VStr "http://ad.test/vast") (fetchingOptions configured_fetcher) result_ok).
  assert (bitrate_updates
            (trace_of (demo_host emitter_failing_on_resolved (Normal result_ok))
               configured_fetcher demo_params) = []) as Hnone by (by vm_compute).
  rewrite Hnone in Hclaim. discriminate Hclaim. in_trace.
Qed.

(** C8, as stated, fails: when a filter throws, neither the transport nor
    the emitter throws, since neither is called, and no event is emitted. *)
Lemma no_event_when_filter_throws :
  ~ (forall H f p,
       (forall u o e, EvGet u o (Throw e) ∉ trace_of H f p) ->
       (forall name payload e, EvEmit name payload (Throw e) ∉ trace_of H f p) ->
       exists resolving resolved,
         emitted (trace_of H f p)
         = [("VAST-resolving", resolving); ("VAST-resolved", resolved)]).
Proof.
  intros Hclaim.
  pose (H := demo_host quiet_emitter (Normal result_ok)).
  assert (trace_of H faulty_fetcher demo_params = [EvUnhandled (VStr "bad filter")])
    as Htrace by reflexivity.
  destruct (Hclaim H faulty_fetcher demo_params) as (resolving & resolved & Hcalls).
  - intros u o e Hin. rewrite Htrace in Hin.
    apply list_elem_of_singleton in Hin. discriminate Hin.
  - intros name payload e Hin. rewrite Htrace in Hin.
    apply list_elem_of_singleton in Hin. discriminate Hin.
  - rewrite Htrace in Hcalls. discriminate Hcalls.
Qed.

(** ** The theorems at concrete inputs *)

(** The details of [result_colliding] overwrite [url] and leave
    [statusCode] to the fixed field. *)
Lemma resolved_payload_details_take_precedence_witness :
  let H := demo_host quiet_emitter (Normal result_colliding) in
  let u := VStr "http://ad.test/vast" in
  let payload := resolved_payload demo_params u result_colliding (measured_duration H) in
  EvGet u (fetchingOptions configured_fetcher) (Normal result_colliding)
    ∈ trace_of H configured_fetcher demo_params
  /\ EvEmit "VAST-resolved" payload (Normal VUndefined)
       ∈ trace_of H configured_fetcher demo_params
  /\ own_props payload !! "url" = Some (VStr "http://other.test/")
  /\ own_props payload !! "statusCode" = Some VNull.
Proof.
  intros H u payload.
  assert (EvGet u (fetchingOptions configured_fetcher) (Normal result_colliding)
            ∈ trace_of H configured_fetcher demo_params) as Hget by in_trace.
  assert (EvEmit "VAST-resolved" payload (Normal VUndefined)
            ∈ trace_of H configured_fetcher demo_params) as Hemit by in_trace.
  split; [exact Hget|]. split; [exact Hemit|]. split.
  - rewrite (resolved_payload_details_take_precedence H configured_fetcher demo_params
               u _ result_colliding payload _ "url" Hget Hemit).
    by vm_compute.
  - rewrite (resolved_payload_details_take_precedence H configured_fetcher demo_params
               u _ result_colliding payload _ "statusCode" Hget Hemit).
    by vm_compute.
Defined.

Lemma filter_exception_is_lost_witness :
  let H := demo_host quiet_emitter (Normal result_ok) in
  URLTemplateFilters faulty_fetcher = [VFun 2] ++ VFun 4 :: [VFun 3]
  /\ apply_filters H [VFun 2] (url demo_params) = Normal (VStr "http://ad.test/vast?a=1")
  /\ call_value H (VFun 4) [VStr "http://ad.test/vast?a=1"] = Throw (VStr "bad filter")
  /\ result_of H faulty_fetcher demo_params = Normal tt
  /\ trace_of H faulty_fetcher demo_params = [EvUnhandled (VStr "bad filter")]
  /\ promise_of H faulty_fetcher demo_params = Pending.
Proof.
  intros H.
  split; [reflexivity|]. split; [reflexivity|]. split; [reflexivity|].
  apply (filter_exception_is_lost H faulty_fetcher demo_params
           [VFun 2] (VFun 4) [VFun 3] (VStr "http://ad.test/vast?a=1") (VStr "bad filter"));
    reflexivity.
Defined.

Lemma exception_is_logged_and_promise_pending_witness :
  let H := demo_host quiet_emitter (Throw (VStr "network down")) in
  EvGet (VStr "http://ad.test/vast") (fetchingOptions configured_fetcher)
    (Throw (VStr "network down")) ∈ trace_of H configured_fetcher demo_params
  /\ logged (trace_of H configured_fetcher demo_params) = [VStr "network down"]
  /\ promise_of H configured_fetcher demo_params = Pending.
Proof.
  intros H.
  assert (EvGet (VStr "http://ad.test/vast") (fetchingOptions configured_fetcher)
            (Throw (VStr "network down")) ∈ trace_of H configured_fetcher demo_params)
    as Hget by in_trace.
  split; [exact Hget|].
  destruct (exception_is_logged_and_promise_pending H configured_fetcher demo_params
              (VStr "network down")) as (_ & Hlog & _ & _ & Hpending).
  - left. eexists _, _. exact Hget.
  - split; [exact Hlog | exact Hpending].
Defined.

Lemma bitrate_updated_once_witness :
  let H := demo_host quiet_emitter (Normal result_error) in
  EvGet (VStr "http://ad.test/vast") (fetchingOptions configured_fetcher)
    (Normal result_error) ∈ trace_of H configured_fetcher demo_params
  /\ (forall payload e,
        EvEmit "VAST-resolved" payload (Throw e) ∉ trace_of H configured_fetcher demo_params)
  /\ bitrate_updates (trace_of H configured_fetcher demo_params)
     = [(VUndefined, VNum 250)].
Proof.
  intros H.
  assert (EvGet (VStr "http://ad.test/vast") (fetchingOptions configured_fetcher)
            (Normal result_error) ∈ trace_of H configured_fetcher demo_params)
    as Hget by in_trace.
  assert (forall payload e,
            EvEmit "VAST-resolved" payload (Throw e)
              ∉ trace_of H configured_fetcher demo_params) as Hemit.
  { intros payload e. apply no_emit_threw. by vm_compute. }
  split; [exact Hget|]. split; [exact Hemit|].
  exact (bitrate_updated_once H configured_fetcher demo_params _ _ _ Hget Hemit).
Defined.

Lemma setOptions_defaults_and_coercion_witness :
  let H := demo_host quiet_emitter (Normal result_ok) in
  let s := start Fetcher_constructor in
  let o : gmap string value := {[ "timeout" := VNum 0; "withCredentials" := VStr "" ]} in
  let o' : gmap string value := {[ "withCredentials" := VStr "yes" ]} in
  truthy (get_prop (VObj o) "timeout") = false
  /\ truthy (get_prop (VObj o) "withCredentials") = false
  /\ truthy (get_prop (VObj o') "withCredentials") = true
  /\ get_prop (fetchingOptions (this (setOptions H (VObj o) s).2)) "timeout" = VNum 120000
  /\ get_prop (fetchingOptions (this (setOptions H (VObj o) s).2)) "withCredentials"
     = VBool false
  /\ get_prop (fetchingOptions (this (setOptions H (VObj o') s).2)) "withCredentials"
     = VBool true.
Proof.
  intros H s o o'.
  split; [reflexivity|]. split; [reflexivity|]. split; [reflexivity|].
  destruct (setOptions_defaults_and_coercion H s o o o') as (_ & Htimeout & Hfalse & Htrue);
    try reflexivity.
  split; [exact Htimeout|]. split; [exact Hfalse | exact Htrue].
Defined.


Lemma events_are_paired_witness :
  let H := demo_host quiet_emitter (Normal result_ok) in
  let H' := demo_host quiet_emitter (Throw (VStr "network down")) in
  let u := VStr "http://ad.test/vast" in
  (EvGet u (fetchingOptions configured_fetcher) (Normal result_ok)
     ∈ trace_of H configured_fetcher demo_params
   /\ (forall name payload e,
         EvEmit name payload (Throw e) ∉ trace_of H configured_fetcher demo_params)
   /\ (emitted (trace_of H configured_fetcher demo_params)).*1
      = ["VAST-resolving"; "VAST-resolved"])
  /\ (EvGet u (fetchingOptions configured_fetcher) (Throw (VStr "network down"))
        ∈ trace_of H' configured_fetcher demo_params
      /\ (emitted (trace_of H' configured_fetcher demo_params)).*1 = ["VAST-resolving"]
      /\ promise_of H' configured_fetcher demo_params = Pending).
Proof.
  intros H H' u.
  assert (EvGet u (fetchingOptions configured_fetcher) (Normal result_ok)
            ∈ trace_of H configured_fetcher demo_params) as Hget by in_trace.
  assert (forall name payload e,
            EvEmit name payload (Throw e) ∉ trace_of H configured_fetcher demo_params)
    as Hemit by (apply no_emit_threw; by vm_compute).
  assert (EvGet u (fetchingOptions configured_fetcher) (Throw (VStr "network down"))
            ∈ trace_of H' configured_fetcher demo_params) as Hget' by in_trace.
  split.
  - split; [exact Hget|]. split; [exact Hemit|].
    rewrite (proj1 (events_are_paired H configured_fetcher demo_params) _ _ _ Hget Hemit).
    reflexivity.
  - split; [exact Hget'|].
    destruct (proj2 (events_are_paired H' configured_fetcher demo_params) _ _ _ Hget')
      as [Hcalls Hpending].
    rewrite Hcalls. split; [reflexivity | exact Hpending].
Defined.

(** * Further properties of the class *)

(** ** What every attempt does *)

Section Every_attempt.
Context (H : Host).



(** X3. The calls of an attempt to its collaborators always form a
    beginning of the sequence: emitter with ['VAST-resolving'], transport,
    emitter with ['VAST-resolved'], estimator.  So no collaborator is
    called twice, and none is called before the previous one. *)
Theorem attempt_calls_in_order f p :
  calls (trace_of H f p)
    `prefix_of` [KEmit "VAST-resolving"; KGet; KEmit "VAST-resolved"; KBitrate].
Proof.
  split_run; cbn [calls app];
    repeat first [apply prefix_nil | apply prefix_cons | reflexivity].
Qed.

(** X4. A promise is settled only at the end of a complete attempt: when
    the promise is fulfilled or rejected, the trace consists of the four
    calls, each of which returned normally, and nothing else. *)
Theorem settled_after_complete_attempt f p :
  settled (promise_of H f p) = true ->
  exists u data r1 r2 r3,
    is_nullish data = false
    /\ trace_of H f p
       = [EvEmit "VAST-resolving"
            (resolving_payload p u (get_prop (fetchingOptions f) "timeout")) (Normal r1);
          EvGet u (fetchingOptions f) (Normal data);
          EvEmit "VAST-resolved" (resolved_payload p u data (measured_duration H)) (Normal r2);
          EvBitrate (get_member_opt (get_member_opt data "details") "byteLength")
            (measured_duration H) (Normal r3)].
Proof. split_run; cbn [settled]; intros; try discriminate; eauto 10. Qed.


End Every_attempt.

(** ** Attempts that cannot reach the transport, or fail after it *)

Section Stuck_attempts.
Context (H : Host) (f : Fetcher) (p : FetchParams).

(** X6. [fetchVAST] on an object whose [fetchingOptions] are missing
    ([setOptions] was never called): reading [this.fetchingOptions.timeout]
    raises a [TypeError] that is logged; no event is emitted, the transport
    is not called and the promise stays pending. *)
Theorem fetch_without_options u :
  apply_filters H (URLTemplateFilters f) (url p) = Normal u ->
  is_nullish (fetchingOptions f) = true ->
  trace_of H f p = [EvLog TypeError] /\ promise_of H f p = Pending.
Proof. intros Hu Hopts. unfold_run. rewrite Hu, Hopts. done. Qed.

(** X7. [fetchVAST] with an [emitter] that is not a function: the
    [TypeError] of the first call is logged, the transport is not called
    and the promise stays pending. *)
Theorem fetch_without_emitter u :
  apply_filters H (URLTemplateFilters f) (url p) = Normal u ->
  is_nullish (fetchingOptions f) = false ->
  is_function (emitter p) = false ->
  trace_of H f p = [EvLog TypeError] /\ promise_of H f p = Pending.
Proof.
  intros Hu Hopts Hemitter. unfold_run. rewrite Hu, Hopts.
  destruct (emitter p); try discriminate; done.
Qed.

(** X8. [fetchVAST] on an object whose transport is missing or has no
    callable [get]: ['VAST-resolving'] is emitted, then the [TypeError] of
    the call is logged; ['VAST-resolved'] is not emitted, the estimator is
    not called and the promise stays pending. *)
Theorem fetch_without_transport u r :
  apply_filters H (URLTemplateFilters f) (url p) = Normal u ->
  is_nullish (fetchingOptions f) = false ->
  call_value H (emitter p)
    [VStr "VAST-resolving"; resolving_payload p u (get_prop (fetchingOptions f) "timeout")]
  = Normal r ->
  is_nullish (urlHandler f) = true
  \/ is_function (get_prop (urlHandler f) "get") = false ->
  trace_of H f p
  = [EvEmit "VAST-resolving"
       (resolving_payload p u (get_prop (fetchingOptions f) "timeout")) (Normal r);
     EvLog TypeError]
  /\ promise_of H f p = Pending.
Proof.
  intros Hu Hopts Hemit Hget. unfold_run. rewrite Hu, Hopts.
  destruct (emitter p) eqn:Hemitter; try discriminate Hemit.
  unfold_run. rewrite Hemit. unfold_run.
  destruct Hget as [Hnull | Hnofun].
  - rewrite Hnull. done.
  - destruct (is_nullish (urlHandler f)); [done|]. unfold_run.
    destruct (get_prop (urlHandler f) "get"); try discriminate; done.
Qed.

(** X9. When the bitrate estimator throws, both events have been emitted
    and the estimator has been called, but the exception is only logged
    and the promise stays pending. *)
Theorem estimator_exception_is_logged b d e :
  EvBitrate b d (Throw e) ∈ trace_of H f p ->
  calls (trace_of H f p) = [KEmit "VAST-resolving"; KGet; KEmit "VAST-resolved"; KBitrate]
  /\ logged (trace_of H f p) = [e]
  /\ promise_of H f p = Pending.
Proof. split_run; trace_facts; done. Qed.

(** The outcome recorded for the transport is that of calling the [get]
    property of [this.urlHandler] on the rewritten URL and the options. *)
Lemma attempt_get_outcome u o out :
  EvGet u o out ∈ trace_of H f p ->
  is_nullish (urlHandler f) = false
  /\ is_function (get_prop (urlHandler f) "get") = true
  /\ out = call_value H (get_prop (urlHandler f) "get") [u; fetchingOptions f].
Proof. split_run; trace_facts; done. Qed.

End Stuck_attempts.

(** ** Configuration, again *)

Section Configuration_again.
Context (H : Host).

Lemma setOptions_chain options s :
  URLTemplateFilters (this (setOptions H options s).2) = URLTemplateFilters (this s).
Proof.
  destruct options; try by rewrite setOptions_this.
  by rewrite setOptions_null.
Qed.

(** X10. [setOptions] does not merge: after two calls the transport and the
    fetching options are those of the second call alone, whatever the first
    call was given (even [null], which throws). *)
Theorem setOptions_last_call_wins first second s :
  second <> VNull ->
  this (setOptions H second (setOptions H first s).2).2
  = this (setOptions H second s).2.
Proof.
  intros Hsecond.
  rewrite (setOptions_this H second (setOptions H first s).2 Hsecond).
  rewrite (setOptions_this H second s Hsecond).
  by rewrite setOptions_chain.
Qed.

(** X11. [setOptions] throws only when given [null], a [TypeError], and
    then changes nothing; given anything else (no argument, an object, a
    primitive) it returns normally.  It never calls a collaborator and
    never touches a promise. *)
Theorem setOptions_throws_on_null_only options s :
  (options = VNull -> setOptions H options s = (Throw TypeError, s))
  /\ (options <> VNull -> (setOptions H options s).1 = Normal tt)
  /\ trace (setOptions H options s).2 = trace s
  /\ promise (setOptions H options s).2 = promise s.
Proof.
  split; [|split; [|split]].
  - intros ->. apply setOptions_null.
  - intros Hnull. destruct options; done.
  - destruct options; done.
  - destruct options; done.
Qed.

(** X12. What [setOptions] leaves in the object, for every value of
    [options] other than [null]: fetching options with exactly the two
    properties [timeout] and [withCredentials], the latter a boolean; a
    truthy [timeout] when [DEFAULT_TIMEOUT] is truthy; a truthy transport
    when the default transport is truthy. *)
Theorem setOptions_result_well_formed options s :
  options <> VNull ->
  truthy (DEFAULT_TIMEOUT H) = true ->
  truthy (default_urlHandler H) = true ->
  let f := this (setOptions H options s).2 in
  dom (own_props (fetchingOptions f)) = ({[ "timeout"; "withCredentials" ]} : gset string)
  /\ (exists b, get_prop (fetchingOptions f) "withCredentials" = VBool b)
  /\ truthy (get_prop (fetchingOptions f) "timeout") = true
  /\ truthy (urlHandler f) = true.
Proof.
  intros Hnull Htimeout Hhandler f. subst f.
  rewrite setOptions_this by done. cbv [fetchingOptions urlHandler].
  split; [|split; [|split]].
  - cbn [own_props]. rewrite dom_insert_L, dom_singleton_L. reflexivity.
  - eexists. reflexivity.
  - change (truthy (js_or (get_prop (default_param options (VObj ∅)) "timeout")
                      (DEFAULT_TIMEOUT H)) = true).
    unfold js_or. destruct (truthy (get_prop _ "timeout")) eqn:Ht; done.
  - unfold js_or.
    destruct (truthy (get_prop _ "urlHandler")) eqn:Ha; [done|].
    destruct (truthy (get_prop _ "urlhandler")) eqn:Hb; done.
Qed.

(** X13. [setOptions] followed by [fetchVAST]: the transport that is called
    is the [get] of the transport selected by [setOptions]; it receives the
    options object built by [setOptions], and the ['VAST-resolving'] event
    that precedes the call carries the [timeout] of that object. *)
Theorem configured_attempt_uses_options options s p u o out :
  options <> VNull ->
  let bag := default_param options (VObj ∅) in
  let handler :=
    js_or (get_prop bag "urlHandler")
          (js_or (get_prop bag "urlhandler") (default_urlHandler H)) in
  let timeout := js_or (get_prop bag "timeout") (DEFAULT_TIMEOUT H) in
  let f := this (setOptions H options s).2 in
  EvGet u o out ∈ trace_of H f p ->
  o = VObj {[ "timeout" := timeout;
              "withCredentials" := Boolean (get_prop bag "withCredentials") ]}
  /\ out = call_value H (get_prop handler "get") [u; o]
  /\ exists r, trace_of H f p !! 0
               = Some (EvEmit "VAST-resolving" (resolving_payload p u timeout) (Normal r)).
Proof.
  intros Hnull bag handler timeout f Hget.
  assert (fetchingOptions f
          = VObj {[ "timeout" := timeout;
                    "withCredentials" := Boolean (get_prop bag "withCredentials") ]})
    as Hopts by (subst f; by rewrite setOptions_this).
  assert (urlHandler f = handler) as Hhandler by (subst f; by rewrite setOptions_this).
  destruct (attempt_get_inv H f p u o out Hget) as (_ & Ho & r & Htake).
  destruct (attempt_get_outcome H f p u o out Hget) as (_ & _ & Hout).
  split; [|split].
  - by rewrite Ho, Hopts.
  - by rewrite Hout, Hhandler, Ho.
  - exists r.
    assert (take 2 (trace_of H f p) !! 0 = trace_of H f p !! 0) as <-
      by (apply lookup_take_lt; lia).
    rewrite Htake, Hopts. reflexivity.
Qed.

End Configuration_again.

(** ** The filter chain, again *)

(** X14. Adding a function and removing the last filter is a round trip:
    the object is as before.  In between the count is one more. *)
Theorem add_then_removeLast filter s :
  is_function filter = true ->
  (countURLTemplateFilters (addURLTemplateFilter filter s).2).1
  = Normal (S (length (URLTemplateFilters (this s))))
  /\ this (removeLastURLTemplateFilter (addURLTemplateFilter filter s).2).2 = this s.
Proof.
  intros Hfun. unfold addURLTemplateFilter. rewrite Hfun.
  destruct s as [[fs handler opts] pr tr tk].
  cbv [countURLTemplateFilters removeLastURLTemplateFilter mbind M_bind mret M_ret
       get_this set_this this fst snd URLTemplateFilters urlHandler fetchingOptions].
  split.
  - by rewrite length_app, Nat.add_1_r.
  - by rewrite removelast_last.
Qed.

(** X15. Registering any sequence of values keeps exactly the functions
    among them, in the order given, after the filters already present;
    every other value is ignored without an error. *)
Theorem register_all_keeps_functions filters s :
  (register_all filters s).1 = Normal tt
  /\ URLTemplateFilters (this (register_all filters s).2)
     = URLTemplateFilters (this s) ++ List.filter is_function filters.
Proof.
  revert s. induction filters as [|filter filters IH]; intros s.
  - split; [reflexivity|]. cbn. by rewrite app_nil_r.
  - cbn [register_all List.filter]. unfold mbind, M_bind.
    destruct (is_function filter) eqn:Hfun.
    + pose proof (addURLTemplateFilter_function filter s Hfun) as Hadd.
      destruct (addURLTemplateFilter filter s) as [[[]|e] s1] eqn:Hs1.
      * destruct (IH s1) as [Hret Hchain]. split; [exact Hret|].
        rewrite Hchain. cbn in Hadd. rewrite Hadd. by rewrite <- app_assoc.
      * unfold addURLTemplateFilter in Hs1. rewrite Hfun in Hs1. discriminate.
    + rewrite (surjective_pairing (addURLTemplateFilter filter s)).
      rewrite (addURLTemplateFilter_not_function filter s Hfun).
      unfold addURLTemplateFilter. rewrite Hfun. cbn. apply IH.
Qed.

(** X16. [removeLastURLTemplateFilter] on an empty chain is not an error
    and changes nothing. *)
Theorem removeLast_on_empty_chain s :
  URLTemplateFilters (this s) = [] ->
  removeLastURLTemplateFilter s = (Normal tt, s).
Proof.
  destruct s as [[fs handler opts] pr tr tk]. cbn. intros ->. reflexivity.
Qed.

Section Chain_again.
Context (H : Host).

Lemma perform_chain_functions c s :
  Forall (fun v => is_function v = true) (URLTemplateFilters (this s)) ->
  Forall (fun v => is_function v = true) (URLTemplateFilters (this (perform H c s).2)).
Proof.
  intros Hs. destruct c as [options|filter| | | |p]; cbn [perform].
  - by rewrite setOptions_chain.
  - destruct (is_function filter) eqn:Hfun.
    + rewrite addURLTemplateFilter_function by done.
      apply Forall_app. split; [done|]. by constructor.
    + by rewrite addURLTemplateFilter_not_function.
  - rewrite removeLastURLTemplateFilter_chain.
    induction Hs as [|v fs Hv Hfs IH]; [constructor|].
    destruct Hfs; cbn; constructor; auto.
  - done.
  - constructor.
  - by rewrite fetchVAST_this.
Qed.

Lemma apply_filters_throw_inv fs u e :
  Forall (fun v => is_function v = true) fs ->
  apply_filters H fs u = Throw e ->
  exists g x, VFun g ∈ fs /\ call_fn H g [x] = Throw e.
Proof.
  intros Hfs. revert u. induction Hfs as [|v fs Hv _ IH]; intros u; cbn; [done|].
  destruct v; try discriminate Hv. cbn.
  destruct (call_fn H f [u]) as [u'|e'] eqn:Hcall.
  - intros Hrest. destruct (IH _ Hrest) as (g & x & Hin & Hg).
    exists g, x. split; [by right | done].
  - intros [= ->]. exists f, u. split; [by left | done].
Qed.

Lemma session_chain_functions cs s :
  Forall (fun v => is_function v = true) (URLTemplateFilters (this s)) ->
  Forall (fun v => is_function v = true) (URLTemplateFilters (this (session H cs s))).
Proof.
  revert s. induction cs as [|c cs IH]; intros s Hs; cbn [session]; [done|].
  apply IH. by apply perform_chain_functions.
Qed.

(** X17. Whatever methods a client calls on a new object, with whatever
    arguments and in whatever order, the chain holds functions only; so
    the only exception that rewriting a URL can raise is one thrown by a
    registered filter. *)
Theorem chain_holds_functions_only cs :
  let s := session H cs (start Fetcher_constructor) in
  Forall (fun v => is_function v = true) (URLTemplateFilters (this s))
  /\ forall u e, apply_filters H (URLTemplateFilters (this s)) u = Throw e ->
       exists g x, VFun g ∈ URLTemplateFilters (this s) /\ call_fn H g [x] = Throw e.
Proof.
  intros s.
  assert (Forall (fun v => is_function v = true) (URLTemplateFilters (this s))) as Hs.
  { subst s. apply session_chain_functions. constructor. }
  split; [exact Hs|]. intros u e. by apply apply_filters_throw_inv.
Qed.

(** X18. After [clearURLTemplateFilters] the count is 0, the transport and
    the fetching options are untouched, and the URL that [fetchVAST]
    requests is the one it was given. *)
Theorem clear_then_fetch s p :
  let s' := (clearURLTemplateFilters s).2 in
  (countURLTemplateFilters s').1 = Normal 0
  /\ urlHandler (this s') = urlHandler (this s)
  /\ fetchingOptions (this s') = fetchingOptions (this s)
  /\ forall u o out, EvGet u o out ∈ trace_of H (this s') p -> u = url p.
Proof.
  intros s'. split; [reflexivity|]. split; [reflexivity|]. split; [reflexivity|].
  intros u o out Hget. apply attempt_get_inv in Hget as (Hu & _).
  change (URLTemplateFilters (this s')) with (@nil value) in Hu.
  cbn [apply_filters] in Hu. congruence.
Qed.

(** X19. A filter added to a chain rewrites the output of that chain: the
    new chain applies the old one, then the new filter, and an exception of
    the old chain is raised before the new filter is called. *)
Theorem added_filter_runs_last filter s u :
  is_function filter = true ->
  apply_filters H (URLTemplateFilters (this (addURLTemplateFilter filter s).2)) u
  = match apply_filters H (URLTemplateFilters (this s)) u with
    | Normal u' => call_value H filter [u']
    | Throw e => Throw e
    end.
Proof.
  intros Hfun. rewrite addURLTemplateFilter_function by done.
  rewrite apply_filters_app.
  destruct (apply_filters H (URLTemplateFilters (this s)) u) as [u'|e]; [|done].
  cbn. by destruct (call_value H filter [u']).
Qed.

End Chain_again.

(** ** What the listener and the estimator are told *)

Section Payloads.
Context (H : Host) (f : Fetcher) (p : FetchParams).

Lemma resolved_fields_dom u data duration :
  dom (resolved_fields p u data duration)
  = ({[ "url"; "previousUrl"; "wrapperDepth"; "error"; "duration"; "statusCode" ]}
       : gset string).
Proof.
  unfold resolved_fields. rewrite !dom_insert_L, dom_singleton_L. set_solver.
Qed.

Lemma get_prop_spread target src k :
  get_prop (VObj (object_spread target src)) k
  = match own_props src !! k with
    | Some v => v
    | None => default VUndefined (target !! k)
    end.
Proof.
  unfold get_prop. cbn [own_props]. rewrite object_spread_lookup.
  destruct (own_props src !! k); [done|]. by destruct (target !! k).
Qed.

(** The three events of a complete attempt. *)
Lemma attempt_events_inv u o data name payload out :
  EvGet u o (Normal data) ∈ trace_of H f p ->
  EvEmit name payload out ∈ trace_of H f p ->
  (name = "VAST-resolving"
   /\ payload = resolving_payload p u (get_prop (fetchingOptions f) "timeout"))
  \/ (name = "VAST-resolved"
      /\ payload = resolved_payload p u data (measured_duration H)).
Proof. split_run; trace_facts; auto. Qed.

Lemma attempt_bitrate_inv u o data b d out :
  EvGet u o (Normal data) ∈ trace_of H f p ->
  EvBitrate b d out ∈ trace_of H f p ->
  b = get_member_opt (get_member_opt data "details") "byteLength"
  /\ d = measured_duration H.
Proof. split_run; trace_facts; auto. Qed.

(** X20. When the transport result has no details to spread, the payload
    of ['VAST-resolved'] has exactly the six fixed properties; its [url] is
    the URL requested, its [duration] the measured one, and its [error]
    and [statusCode] are either truthy or [null] (never [undefined], [0],
    [""] or [false]). *)
Theorem resolved_payload_without_details u o data payload out :
  EvGet u o (Normal data) ∈ trace_of H f p ->
  EvEmit "VAST-resolved" payload out ∈ trace_of H f p ->
  own_props (get_member_opt data "details") = ∅ ->
  dom (own_props payload)
  = ({[ "url"; "previousUrl"; "wrapperDepth"; "error"; "duration"; "statusCode" ]}
       : gset string)
  /\ get_prop payload "url" = u
  /\ get_prop payload "duration" = measured_duration H
  /\ (get_prop payload "error" = VNull \/ truthy (get_prop payload "error") = true)
  /\ (get_prop payload "statusCode" = VNull
      \/ truthy (get_prop payload "statusCode") = true).
Proof.
  intros Hget Hemit Hnone.
  destruct (attempt_events_inv _ _ _ _ _ _ Hget Hemit) as [[Hname _]|[_ ->]];
    [discriminate Hname|].
  unfold resolved_payload. split; [|split; [|split; [|split]]].
  - cbn [own_props]. unfold object_spread.
    rewrite Hnone, (left_id_L ∅ (∪)). apply resolved_fields_dom.
  - rewrite get_prop_spread, Hnone, lookup_empty. reflexivity.
  - rewrite get_prop_spread, Hnone, lookup_empty. reflexivity.
  - rewrite get_prop_spread, Hnone, lookup_empty.
    change (default VUndefined (resolved_fields p u data (measured_duration H) !! "error"))
      with (js_or (get_member_opt data "error") VNull).
    unfold js_or. destruct (truthy (get_member_opt data "error")) eqn:Ht; auto.
  - rewrite get_prop_spread, Hnone, lookup_empty.
    change (default VUndefined
              (resolved_fields p u data (measured_duration H) !! "statusCode"))
      with (js_or (get_member_opt data "statusCode") VNull).
    unfold js_or. destruct (truthy (get_member_opt data "statusCode")) eqn:Ht; auto.
Qed.

(** X21. The two events of an attempt describe the same request: the
    payloads of ['VAST-resolving'] and ['VAST-resolved'] carry the same
    [url] (the one requested), [previousUrl] and [wrapperDepth], for each
    of these names that the details do not redefine. *)
Theorem payloads_describe_same_request u o data resolving out1 resolved out2 k :
  EvGet u o (Normal data) ∈ trace_of H f p ->
  EvEmit "VAST-resolving" resolving out1 ∈ trace_of H f p ->
  EvEmit "VAST-resolved" resolved out2 ∈ trace_of H f p ->
  k ∈ ["url"; "previousUrl"; "wrapperDepth"] ->
  own_props (get_member_opt data "details") !! k = None ->
  get_prop resolved k = get_prop resolving k
  /\ get_prop resolving "url" = u.
Proof.
  intros Hget Hfirst Hsecond Hk Hnone.
  destruct (attempt_events_inv _ _ _ _ _ _ Hget Hfirst) as [[_ ->]|[Hname _]];
    [|discriminate Hname].
  destruct (attempt_events_inv _ _ _ _ _ _ Hget Hsecond) as [[Hname _]|[_ ->]];
    [discriminate Hname|].
  split; [|reflexivity].
  unfold resolved_payload. rewrite get_prop_spread, Hnone.
  decompose_list_elem_of; subst k; reflexivity.
Qed.

(** X22. The estimator and the listener are told the same: the
    [byteLength] given to the estimator is the [byteLength] of the payload
    of ['VAST-resolved'], and the duration given to the estimator is the
    measured one, which is also the [duration] of the payload unless the
    details redefine it. *)
Theorem estimator_and_listener_agree u o data payload out b d out' :
  EvGet u o (Normal data) ∈ trace_of H f p ->
  EvEmit "VAST-resolved" payload out ∈ trace_of H f p ->
  EvBitrate b d out' ∈ trace_of H f p ->
  b = get_prop payload "byteLength"
  /\ d = measured_duration H
  /\ (own_props (get_member_opt data "details") !! "duration" = None ->
      get_prop payload "duration" = d).
Proof.
  intros Hget Hemit Hbit.
  destruct (attempt_events_inv _ _ _ _ _ _ Hget Hemit) as [[Hname _]|[_ ->]];
    [discriminate Hname|].
  destruct (attempt_bitrate_inv _ _ _ _ _ _ Hget Hbit) as [-> ->].
  unfold resolved_payload. split; [|split; [reflexivity|]].
  - rewrite get_prop_spread.
    change (resolved_fields p u data (measured_duration H) !! "byteLength")
      with (@None value).
    unfold get_member_opt at 1, get_prop.
    destruct (get_member_opt data "details") as [| | | |s|props|]; cbn; reflexivity.
  - intros Hnone. rewrite get_prop_spread, Hnone. reflexivity.
Qed.

End Payloads.

(** ** The further properties at concrete inputs *)

Lemma settled_after_complete_attempt_witness :
  let H := demo_host quiet_emitter (Normal result_ok) in
  settled (promise_of H configured_fetcher demo_params) = true
  /\ length (trace_of H configured_fetcher demo_params) = 4.
Proof.
  intros H.
  assert (settled (promise_of H configured_fetcher demo_params) = true) as Hsettled
    by (by vm_compute).
  split; [exact Hsettled|].
  destruct (settled_after_complete_attempt H configured_fetcher demo_params Hsettled)
    as (u & data & r1 & r2 & r3 & _ & Htrace).
  rewrite Htrace. reflexivity.
Defined.


Lemma fetch_without_options_witness :
  let H := demo_host quiet_emitter (Normal result_ok) in
  apply_filters H (URLTemplateFilters Fetcher_constructor) (url demo_params)
  = Normal (VStr "http://ad.test/vast")
  /\ is_nullish (fetchingOptions Fetcher_constructor) = true
  /\ trace_of H Fetcher_constructor demo_params = [EvLog TypeError]
  /\ promise_of H Fetcher_constructor demo_params = Pending.
Proof.
  intros H. split; [reflexivity|]. split; [reflexivity|].
  apply (fetch_without_options H Fetcher_constructor demo_params
           (VStr "http://ad.test/vast")); reflexivity.
Defined.

Lemma fetch_without_emitter_witness :
  let H := demo_host quiet_emitter (Normal result_ok) in
  let p := {| url := VStr "http://ad.test/vast"; maxWrapperDepth := VNum 5;
              emitter := VUndefined; wrapperDepth := VNum 1;
              previousUrl := VNull; wrapperAd := VNull |} in
  apply_filters H (URLTemplateFilters configured_fetcher) (url p)
  = Normal (VStr "http://ad.test/vast")
  /\ is_nullish (fetchingOptions configured_fetcher) = false
  /\ is_function (emitter p) = false
  /\ trace_of H configured_fetcher p = [EvLog TypeError]
  /\ promise_of H configured_fetcher p = Pending.
Proof.
  intros H p. split; [reflexivity|]. split; [reflexivity|]. split; [reflexivity|].
  apply (fetch_without_emitter H configured_fetcher p (VStr "http://ad.test/vast"));
    reflexivity.
Defined.

Lemma fetch_without_transport_witness :
  let H := demo_host quiet_emitter (Normal result_ok) in
  let f := {| URLTemplateFilters := []; urlHandler := VObj ∅;
              fetchingOptions := fetchingOptions configured_fetcher |} in
  let u := VStr "http://ad.test/vast" in
  apply_filters H (URLTemplateFilters f) (url demo_params) = Normal u
  /\ is_nullish (fetchingOptions f) = false
  /\ call_value H (emitter demo_params)
       [VStr "VAST-resolving";
        resolving_payload demo_params u (get_prop (fetchingOptions f) "timeout")]
     = Normal VUndefined
  /\ is_function (get_prop (urlHandler f) "get") = false
  /\ calls (trace_of H f demo_params) = [KEmit "VAST-resolving"]
  /\ promise_of H f demo_params = Pending.
Proof.
  intros H f u.
  split; [reflexivity|]. split; [reflexivity|]. split; [reflexivity|].
  split; [reflexivity|].
  destruct (fetch_without_transport H f demo_params u VUndefined)
    as [Htrace Hpending]; try reflexivity.
  - right. reflexivity.
  - rewrite Htrace. split; [reflexivity | exact Hpending].
Defined.

Lemma estimator_exception_is_logged_witness :
  let H := with_estimator (demo_host quiet_emitter (Normal result_ok))
             (fun _ _ => Throw (VStr "estimator failed")) in
  EvBitrate (VNum 42) (VNum 250) (Throw (VStr "estimator failed"))
    ∈ trace_of H configured_fetcher demo_params
  /\ logged (trace_of H configured_fetcher demo_params) = [VStr "estimator failed"]
  /\ promise_of H configured_fetcher demo_params = Pending.
Proof.
  intros H.
  assert (EvBitrate (VNum 42) (VNum 250) (Throw (VStr "estimator failed"))
            ∈ trace_of H configured_fetcher demo_params) as Hin by in_trace.
  split; [exact Hin|].
  exact (proj2 (estimator_exception_is_logged H configured_fetcher demo_params _ _ _ Hin)).
Defined.

Lemma setOptions_last_call_wins_witness :
  let H := demo_host quiet_emitter (Normal result_ok) in
  let first := VObj {[ "timeout" := VNum 5; "withCredentials" := VBool true ]} in
  VUndefined <> VNull
  /\ this (setOptions H VUndefined (setOptions H first (start Fetcher_constructor)).2).2
     = this (setOptions H VUndefined (start Fetcher_constructor)).2.
Proof.
  intros H first.
  assert (VUndefined <> VNull) as Hnull by discriminate.
  split; [exact Hnull|].
  exact (setOptions_last_call_wins H first VUndefined (start Fetcher_constructor) Hnull).
Defined.

Lemma setOptions_throws_on_null_only_witness :
  let H := demo_host quiet_emitter (Normal result_ok) in
  let s := start configured_fetcher in
  setOptions H VNull s = (Throw TypeError, s)
  /\ VNum 5 <> VNull
  /\ (setOptions H (VNum 5) s).1 = Normal tt.
Proof.
  intros H s.
  assert (VNum 5 <> VNull) as Hnull by discriminate.
  split; [|split; [exact Hnull|]].
  - exact (proj1 (setOptions_throws_on_null_only H VNull s) eq_refl).
  - exact (proj1 (proj2 (setOptions_throws_on_null_only H (VNum 5) s)) Hnull).
Defined.

Lemma setOptions_result_well_formed_witness :
  let H := demo_host quiet_emitter (Normal result_ok) in
  let options := VObj {[ "timeout" := VNum 0; "withCredentials" := VStr "yes" ]} in
  let f := this (setOptions H options (start Fetcher_constructor)).2 in
  options <> VNull
  /\ truthy (DEFAULT_TIMEOUT H) = true
  /\ truthy (default_urlHandler H) = true
  /\ truthy (get_prop (fetchingOptions f) "timeout") = true
  /\ truthy (urlHandler f) = true.
Proof.
  intros H options f.
  assert (options <> VNull) as Hnull by discriminate.
  split; [exact Hnull|]. split; [reflexivity|]. split; [reflexivity|].
  destruct (setOptions_result_well_formed H options (start Fetcher_constructor)
              Hnull eq_refl eq_refl) as (_ & _ & Htimeout & Hhandler).
  split; [exact Htimeout | exact Hhandler].
Defined.

Lemma configured_attempt_uses_options_witness :
  let H := demo_host quiet_emitter (Normal result_ok) in
  let f := this (setOptions H VUndefined (start Fetcher_constructor)).2 in
  let u := VStr "http://ad.test/vast" in
  let o := VObj {[ "timeout" := VNum 120000; "withCredentials" := VBool false ]} in
  VUndefined <> VNull
  /\ EvGet u o (Normal result_ok) ∈ trace_of H f demo_params
  /\ Normal result_ok = call_value H (VFun 1) [u; o]
  /\ exists r, trace_of H f demo_params !! 0
               = Some (EvEmit "VAST-resolving"
                         (resolving_payload demo_params u (VNum 120000)) (Normal r)).
Proof.
  intros H f u o.
  assert (VUndefined <> VNull) as Hnull by discriminate.
  assert (EvGet u o (Normal result_ok) ∈ trace_of H f demo_params) as Hget by in_trace.
  split; [exact Hnull|]. split; [exact Hget|].
  exact (proj2 (configured_attempt_uses_options H VUndefined (start Fetcher_constructor)
                  demo_params u o (Normal result_ok) Hnull Hget)).
Defined.

Lemma add_then_removeLast_witness :
  let s := start filtering_fetcher in
  is_function (VFun 4) = true
  /\ (countURLTemplateFilters (addURLTemplateFilter (VFun 4) s).2).1 = Normal 3
  /\ this (removeLastURLTemplateFilter (addURLTemplateFilter (VFun 4) s).2).2
     = filtering_fetcher.
Proof.
  intros s. split; [reflexivity|].
  exact (add_then_removeLast (VFun 4) s eq_refl).
Defined.

Lemma removeLast_on_empty_chain_witness :
  let s := start configured_fetcher in
  URLTemplateFilters (this s) = []
  /\ removeLastURLTemplateFilter s = (Normal tt, s).
Proof.
  intros s. split; [reflexivity|].
  exact (removeLast_on_empty_chain s eq_refl).
Defined.

Lemma clear_then_fetch_witness :
  let H := demo_host quiet_emitter (Normal result_ok) in
  let s' := (clearURLTemplateFilters (start filtering_fetcher)).2 in
  EvGet (VStr "http://ad.test/vast") (fetchingOptions filtering_fetcher) (Normal result_ok)
    ∈ trace_of H (this s') demo_params
  /\ VStr "http://ad.test/vast" = url demo_params.
Proof.
  intros H s'.
  assert (EvGet (VStr "http://ad.test/vast") (fetchingOptions filtering_fetcher)
            (Normal result_ok) ∈ trace_of H (this s') demo_params) as Hget by in_trace.
  split; [exact Hget|].
  exact (proj2 (proj2 (proj2 (clear_then_fetch H (start filtering_fetcher) demo_params)))
           _ _ _ Hget).
Defined.

Lemma added_filter_runs_last_witness :
  let H := demo_host quiet_emitter (Normal result_ok) in
  let s := start filtering_fetcher in
  is_function (VFun 4) = true
  /\ apply_filters H (URLTemplateFilters (this (addURLTemplateFilter (VFun 4) s).2))
       (VStr "http://ad.test/vast")
     = call_value H (VFun 4) [VStr "http://ad.test/vast?a=1&b=2"].
Proof.
  intros H s. split; [reflexivity|].
  exact (added_filter_runs_last H (VFun 4) s (VStr "http://ad.test/vast") eq_refl).
Defined.

Lemma resolved_payload_without_details_witness :
  let H := demo_host quiet_emitter (Normal result_error) in
  let u := VStr "http://ad.test/vast" in
  let payload := resolved_payload demo_params u result_error (measured_duration H) in
  EvGet u (fetchingOptions configured_fetcher) (Normal result_error)
    ∈ trace_of H configured_fetcher demo_params
  /\ EvEmit "VAST-resolved" payload (Normal VUndefined)
       ∈ trace_of H configured_fetcher demo_params
  /\ own_props (get_member_opt result_error "details") = ∅
  /\ dom (own_props payload)
     = ({[ "url"; "previousUrl"; "wrapperDepth"; "error"; "duration"; "statusCode" ]}
          : gset string)
  /\ get_prop payload "url" = u.
Proof.
  intros H u payload.
  assert (EvGet u (fetchingOptions configured_fetcher) (Normal result_error)
            ∈ trace_of H configured_fetcher demo_params) as Hget by in_trace.
  assert (EvEmit "VAST-resolved" payload (Normal VUndefined)
            ∈ trace_of H configured_fetcher demo_params) as Hemit by in_trace.
  assert (own_props (get_member_opt result_error "details") = ∅) as Hnone by reflexivity.
  split; [exact Hget|]. split; [exact Hemit|]. split; [exact Hnone|].
  destruct (resolved_payload_without_details H configured_fetcher demo_params
              _ _ _ _ _ Hget Hemit Hnone) as (Hdom & Hurl & _).
  split; [exact Hdom | exact Hurl].
Defined.

Lemma payloads_describe_same_request_witness :
  let H := demo_host quiet_emitter (Normal result_ok) in
  let u := VStr "http://ad.test/vast" in
  let resolving := resolving_payload demo_params u (VNum 120000) in
  let resolved := resolved_payload demo_params u result_ok (measured_duration H) in
  EvGet u (fetchingOptions configured_fetcher) (Normal result_ok)
    ∈ trace_of H configured_fetcher demo_params
  /\ EvEmit "VAST-resolving" resolving (Normal VUndefined)
       ∈ trace_of H configured_fetcher demo_params
  /\ EvEmit "VAST-resolved" resolved (Normal VUndefined)
       ∈ trace_of H configured_fetcher demo_params
  /\ "wrapperDepth" ∈ ["url"; "previousUrl"; "wrapperDepth"]
  /\ own_props (get_member_opt result_ok "details") !! "wrapperDepth" = None
  /\ get_prop resolved "wrapperDepth" = get_prop resolving "wrapperDepth".
Proof.
  intros H u resolving resolved.
  assert (EvGet u (fetchingOptions configured_fetcher) (Normal result_ok)
            ∈ trace_of H configured_fetcher demo_params) as Hget by in_trace.
  assert (EvEmit "VAST-resolving" resolving (Normal VUndefined)
            ∈ trace_of H configured_fetcher demo_params) as Hfirst by in_trace.
  assert (EvEmit "VAST-resolved" resolved (Normal VUndefined)
            ∈ trace_of H configured_fetcher demo_params) as Hsecond by in_trace.
  assert ("wrapperDepth" ∈ ["url"; "previousUrl"; "wrapperDepth"]) as Hk by in_list.
  assert (own_props (get_member_opt result_ok "details") !! "wrapperDepth" = None)
    as Hnone by reflexivity.
  split; [exact Hget|]. split; [exact Hfirst|]. split; [exact Hsecond|].
  split; [exact Hk|]. split; [exact Hnone|].
  exact (proj1 (payloads_describe_same_request H configured_fetcher demo_params
                  _ _ _ _ _ _ _ _ Hget Hfirst Hsecond Hk Hnone)).
Defined.

Lemma estimator_and_listener_agree_witness :
  let H := demo_host quiet_emitter (Normal result_ok) in
  let u := VStr "http://ad.test/vast" in
  let payload := resolved_payload demo_params u result_ok (measured_duration H) in
  EvGet u (fetchingOptions configured_fetcher) (Normal result_ok)
    ∈ trace_of H configured_fetcher demo_params
  /\ EvEmit "VAST-resolved" payload (Normal VUndefined)
       ∈ trace_of H configured_fetcher demo_params
  /\ EvBitrate (VNum 42) (VNum 250) (Normal VUndefined)
       ∈ trace_of H configured_fetcher demo_params
  /\ VNum 42 = get_prop payload "byteLength"
  /\ VNum 250 = measured_duration H.
Proof.
  intros H u payload.
  assert (EvGet u (fetchingOptions configured_fetcher) (Normal result_ok)
            ∈ trace_of H configured_fetcher demo_params) as Hget by in_trace.
  assert (EvEmit "VAST-resolved" payload (Normal VUndefined)
            ∈ trace_of H configured_fetcher demo_params) as Hemit by in_trace.
  assert (EvBitrate (VNum 42) (VNum 250) (Normal VUndefined)
            ∈ trace_of H configured_fetcher demo_params) as Hbit by in_trace.
  split; [exact Hget|]. split; [exact Hemit|]. split; [exact Hbit|].
  destruct (estimator_and_listener_agree H configured_fetcher demo_params
              _ _ _ _ _ _ _ _ Hget Hemit Hbit) as (Hb & Hd & _).
  split; [exact Hb | exact Hd].
Defined.
